(** * rebloom: the Bloom filter command layer (src/bloom-filter.ts)

    A shallow embedding of the [BloomFilter] class: every public method
    assembles one positional command and hands it to the client.  The
    development follows the source method by method and then proves the
    properties of the assembled commands. *)

From Stdlib Require Import List String ZArith Lia SpecFloat.
Import ListNotations.
Open Scope string_scope.
Open Scope list_scope.

Set Implicit Arguments.

(** ** JavaScript numbers

    A TypeScript [number] is an IEEE 754 binary64 value.  The standard
    library's [spec_float] is that data type (sign, mantissa, exponent,
    the two zeros, the infinities and NaN) with its comparisons. *)
Definition number : Type := spec_float.

Module JsNumber.

Definition prec : Z := 53.
Definition emax : Z := 1024.

Definition zero : number := S754_zero false.
Definition neg_zero : number := S754_zero true.
Definition nan : number := S754_nan.

(** The number denoted by an integer literal such as [100] or [-1]. *)
Definition of_Z (z : Z) : number := binary_normalize prec emax z 0 false.

(** The number denoted by the decimal literal [n/d], correctly rounded,
    e.g. [0.01] is [ratio 1 100]. *)
Definition ratio (n d : Z) : number := SFdiv prec emax (of_Z n) (of_Z d).

(** [x < y], [x <= y] and [x == y] on numbers; every comparison with
    NaN is false and the two zeros are equal. *)
Definition ltb (x y : number) : bool := SFltb x y.
Definition leb (x y : number) : bool := SFleb x y.
Definition eqb (x y : number) : bool := SFeqb x y.

Definition is_nan (x : number) : bool :=
  match x with S754_nan => true | _ => false end.

(** ToBoolean on a number: [+0], [-0] and NaN are falsy. *)
Definition to_boolean (x : number) : bool := negb (eqb x zero || is_nan x).

End JsNumber.

(** ** Values and commands *)

(** What a caller can put in an [any[]] batch and what ends up in a
    command: the primitive JavaScript values.  A command proper is a
    [StringOrNumber[]], i.e. built from [Str] and [Num]. *)
Inductive value : Type :=
| Undefined
| Null
| Bool (b : bool)
| Num (n : number)
| Str (s : string).

(** An ordered argument sequence, first element first. *)
Definition command : Type := list value.

(** [cmd.push(x1, ..., xn)] *)
Definition push (cmd : command) (xs : list value) : command := cmd ++ xs.

(** An optional numeric field or parameter: [None] is [undefined]. *)
Definition optional (o : option number) : value :=
  match o with Some n => Num n | None => Undefined end.

(** [if (x)] for [x : number | undefined]. *)
Definition truthy (o : option number) : bool :=
  match o with Some n => JsNumber.to_boolean n | None => false end.

(** [x < 0] for [x : number | undefined]; [undefined] converts to NaN. *)
Definition negative (o : option number) : bool :=
  match o with Some n => JsNumber.ltb n JsNumber.zero | None => false end.

(** Modelled from the spec: the [InsertOptions] type imported from
    ./options, which is not part of the sources at hand ("options carries
    up to four independent optional knobs: errorRate, capacity,
    expansionRate, upsert").  A field left out of the object literal is
    [None]. *)
Record InsertOptions : Type := mkInsertOptions {
  errorRate : option number;
  capacity : option number;
  expansionRate : option number;
  upsert : option bool
}.

(** The object literal [{}]. *)
Definition no_options : InsertOptions :=
  {| errorRate := None; capacity := None; expansionRate := None; upsert := None |}.

(** ** The client

    Modelled from the spec: [this.client], declared by the base class in
    ./base-filter, which is not part of the sources at hand.  The spec
    describes it as a transport that "accepts an ordered sequence of scalar
    arguments and returns a raw reply" asynchronously.  The model keeps the
    sequence of commands handed over so far; the promise returned for a
    request is its position in that sequence. *)
Module Client.

Record t : Type := mk { sent : list command }.

Definition promise : Type := nat.

(** How a method call ends: it returns a value or throws synchronously. *)
Inductive completion (A : Type) : Type :=
| Returns (a : A)
| Throws (reason : string).
Arguments Throws {A} reason.

(** A method body: it runs against the client and leaves it updated. *)
Definition action (A : Type) : Type := t -> completion A * t.

Definition fresh : t := {| sent := [] |}.

Definition submit (cmd : command) : action promise :=
  fun c => (Returns (List.length (sent c)), {| sent := sent c ++ [cmd] |}).

(** [client.call(...args)]: the arguments are the command. *)
Definition call (args : list value) : action promise := submit args.

(** [client.callOne(cmd)]: the array is the command. *)
Definition callOne (cmd : command) : action promise := submit cmd.

End Client.

(** Modelled from the spec: the part of the base class a Bloom filter
    uses besides the client, namely the filter's [name] (the base class in
    ./base-filter is not part of the sources at hand). *)
Record BaseFilter : Type := mkFilter { name : string }.

(** ** class BloomFilter *)
Module BloomFilter.

(** The local [cmd] of [reserve]; [expansionRate = 2] when the caller
    leaves the parameter out. *)
Definition reserve_cmd (this : BaseFilter) (errorRate capacity : number)
           (expansionRate : option number) : command :=
  let expansionRate :=
    match expansionRate with Some r => r | None => JsNumber.of_Z 2 end in
  if JsNumber.leb expansionRate JsNumber.zero
  then [Str "BF.RESERVE"; Str (name this); Num errorRate; Num capacity;
        Str "NONSCALING"]
  else [Str "BF.RESERVE"; Str (name this); Num errorRate; Num capacity;
        Str "EXPANSION"; Num expansionRate].

Definition reserve (this : BaseFilter) (errorRate capacity : number)
           (expansionRate : option number) : Client.action Client.promise :=
  Client.callOne (reserve_cmd this errorRate capacity expansionRate).

Definition add (this : BaseFilter) (item : value)
  : Client.action Client.promise :=
  Client.call ([Str "BF.ADD"; Str (name this); item]).

Definition madd (this : BaseFilter) (items : list value)
  : Client.action Client.promise :=
  Client.call ([Str "BF.MADD"; Str (name this)] ++ items).

Definition exists_ (this : BaseFilter) (item : value)
  : Client.action Client.promise :=
  Client.call ([Str "BF.EXISTS"; Str (name this); item]).

Definition mexists (this : BaseFilter) (items : list value)
  : Client.action Client.promise :=
  Client.call ([Str "BF.MEXISTS"; Str (name this)] ++ items).

Definition info (this : BaseFilter) : Client.action Client.promise :=
  Client.call ([Str "BF.INFO"; Str (name this)]).

(** The local [cmd] of [insert] when it reaches the call.  [options]
    is [None] when the caller passes no second argument; [upsert]
    is [true] when the field is left out. *)
Definition insert_cmd (this : BaseFilter) (items : list value)
           (options : option InsertOptions) : command :=
  let options := match options with Some o => o | None => no_options end in
  let errorRate := errorRate options in
  let capacity := capacity options in
  let expansionRate := expansionRate options in
  let upsert := match upsert options with Some b => b | None => true end in
  let cmd := [Str "BF.INSERT"; Str (name this)] in
  let cmd :=
    if truthy errorRate then push cmd [Str "ERROR"; optional errorRate]
    else cmd in
  let cmd :=
    if truthy capacity then push cmd [Str "CAPACITY"; optional capacity]
    else cmd in
  let cmd :=
    if truthy expansionRate then
      if negative expansionRate then push cmd [Str "NONSCALING"]
      else push cmd [Str "EXPANSION"; optional expansionRate]
    else cmd in
  let cmd := if negb upsert then push cmd [Str "NOCREATE"] else cmd in
  let cmd := push cmd (Str "ITEMS" :: items) in
  cmd.

Definition insert (this : BaseFilter) (items : list value)
           (options : option InsertOptions) : Client.action Client.promise :=
  Client.call (insert_cmd this items options).

End BloomFilter.

(** ** Literals used in the examples *)

Definition n0_01 : number := JsNumber.ratio 1 100.
Definition n100 : number := JsNumber.of_Z 100.

(** The options object
    [{errorRate: 0.01, capacity: 100, expansionRate: -1, upsert: false}]. *)
Definition all_options : InsertOptions :=
  {| errorRate := Some n0_01;
     capacity := Some n100;
     expansionRate := Some (JsNumber.of_Z (-1));
     upsert := Some false |}.

(** ** The shape of an [insert] command

    [insert] pushes onto [cmd] statement by statement.  Read as a whole,
    the command is the two-element head, four optional clauses, the
    [ITEMS] marker and the items. *)

Definition error_clause (o : InsertOptions) : list value :=
  match errorRate o with
  | Some r => if JsNumber.to_boolean r then [Str "ERROR"; Num r] else []
  | None => []
  end.

Definition capacity_clause (o : InsertOptions) : list value :=
  match capacity o with
  | Some c => if JsNumber.to_boolean c then [Str "CAPACITY"; Num c] else []
  | None => []
  end.

Definition scaling_clause (o : InsertOptions) : list value :=
  match expansionRate o with
  | Some r =>
      if JsNumber.to_boolean r then
        if JsNumber.ltb r JsNumber.zero then [Str "NONSCALING"]
        else [Str "EXPANSION"; Num r]
      else []
  | None => []
  end.

Definition nocreate_clause (o : InsertOptions) : list value :=
  match upsert o with
  | Some false => [Str "NOCREATE"]
  | _ => []
  end.

Definition clauses (o : InsertOptions) : list value :=
  error_clause o ++ capacity_clause o ++ scaling_clause o ++ nocreate_clause o.

(** The options object [insert] destructures: the argument, or [{}]. *)
Definition given (options : option InsertOptions) : InsertOptions :=
  match options with Some o => o | None => no_options end.

(** Number of elements of a command that are the string [token]. *)
Definition is_token (token : string) (v : value) : bool :=
  match v with Str s => String.eqb token s | _ => false end.

Definition count_token (token : string) (cmd : command) : nat :=
  List.length (List.filter (is_token token) cmd).

(** What it means for a method call to be refused locally: it throws and
    the client has been handed nothing. *)
Definition fails_before_submission (A : Type) (m : Client.action A)
           (c : Client.t) : Prop :=
  exists reason, m c = (Client.Throws reason, c).

(** A method call that hands exactly [cmd] to the client and returns the
    promise of that request. *)
Definition submits (m : Client.action Client.promise) (cmd : command) : Prop :=
  forall c,
    m c = (Client.Returns (List.length (Client.sent c)),
           Client.mk (Client.sent c ++ [cmd])).

(** ** The literals denote the expected doubles *)

Example n0_01_is_the_double :
  n0_01 = S754_finite false 5764607523034235 (-59).
Proof. vm_compute. reflexivity. Qed.

Example n100_is_the_double :
  n100 = S754_finite false 7036874417766400 (-46).
Proof. vm_compute. reflexivity. Qed.

(** ** Facts about comparisons with zero *)

Section NumberFacts.

Variable n : number.

Lemma negative_is_truthy :
  JsNumber.ltb n JsNumber.zero = true -> JsNumber.to_boolean n = true.
Proof. destruct n as [s | s | | s m e]; try destruct s; cbv; congruence. Qed.

Lemma positive_is_truthy :
  JsNumber.ltb JsNumber.zero n = true -> JsNumber.to_boolean n = true.
Proof. destruct n as [s | s | | s m e]; try destruct s; cbv; congruence. Qed.

Lemma positive_is_not_negative :
  JsNumber.ltb JsNumber.zero n = true -> JsNumber.ltb n JsNumber.zero = false.
Proof. destruct n as [s | s | | s m e]; try destruct s; cbv; congruence. Qed.

Lemma positive_is_not_at_most_zero :
  JsNumber.ltb JsNumber.zero n = true -> JsNumber.leb n JsNumber.zero = false.
Proof. destruct n as [s | s | | s m e]; try destruct s; cbv; congruence. Qed.

Lemma zero_is_falsy :
  JsNumber.eqb n JsNumber.zero = true -> JsNumber.to_boolean n = false.
Proof. destruct n as [s | s | | s m e]; try destruct s; cbv; congruence. Qed.

Lemma zero_is_at_most_zero :
  JsNumber.eqb n JsNumber.zero = true -> JsNumber.leb n JsNumber.zero = true.
Proof. destruct n as [s | s | | s m e]; try destruct s; cbv; congruence. Qed.

End NumberFacts.

(** ** Shape lemmas *)

Lemma insert_cmd_shape (this : BaseFilter) (items : list value)
      (options : option InsertOptions) :
  BloomFilter.insert_cmd this items options =
  [Str "BF.INSERT"; Str (name this)] ++ clauses (given options)
    ++ Str "ITEMS" :: items.
Proof.
  unfold BloomFilter.insert_cmd, clauses, error_clause, capacity_clause,
    scaling_clause, nocreate_clause, push.
  fold (given options).
  destruct (given options) as [er cap ex up]; simpl.
  destruct er as [r|]; simpl; [destruct (JsNumber.to_boolean r)|];
    (destruct cap as [k|]; simpl; [destruct (JsNumber.to_boolean k)|]);
    (destruct ex as [x|]; simpl;
       [destruct (JsNumber.to_boolean x); [destruct (JsNumber.ltb x JsNumber.zero)|]|]);
    (destruct up as [[|]|]); reflexivity.
Qed.

Lemma count_token_app (token : string) (xs ys : command) :
  count_token token (xs ++ ys) = count_token token xs + count_token token ys.
Proof.
  unfold count_token. rewrite filter_app, length_app. reflexivity.
Qed.

Lemma submits_call (cmd : command) : submits (Client.call cmd) cmd.
Proof. intros c. reflexivity. Qed.

Lemma submits_callOne (cmd : command) : submits (Client.callOne cmd) cmd.
Proof. intros c. reflexivity. Qed.

Lemma submits_not_failing (m : Client.action Client.promise) (cmd : command)
      (c : Client.t) :
  submits m cmd -> ~ fails_before_submission m c.
Proof.
  intros Hm [reason Hr]. rewrite (Hm c) in Hr. discriminate.
Qed.

(** ** Properties of the assembled commands *)

(** C1.  For every filter name, [insert] with items ["a","b"] and options
    [{errorRate: 0.01, capacity: 100, expansionRate: -1, upsert: false}]
    builds, and hands to the client, exactly the sequence
    INSERT name ERROR 0.01 CAPACITY 100 NONSCALING NOCREATE ITEMS a b:
    the optional clauses come in the order ERROR, CAPACITY, NONSCALING,
    NOCREATE and the ITEMS marker precedes the items.  The operation token
    is spelled [BF.INSERT] on the wire. *)
Theorem insert_all_clauses_in_order (this : BaseFilter) :
  BloomFilter.insert_cmd this [Str "a"; Str "b"] (Some all_options) =
    [Str "BF.INSERT"; Str (name this);
     Str "ERROR"; Num n0_01;
     Str "CAPACITY"; Num n100;
     Str "NONSCALING";
     Str "NOCREATE";
     Str "ITEMS"; Str "a"; Str "b"]
  /\ submits (BloomFilter.insert this [Str "a"; Str "b"] (Some all_options))
       [Str "BF.INSERT"; Str (name this);
        Str "ERROR"; Num n0_01;
        Str "CAPACITY"; Num n100;
        Str "NONSCALING";
        Str "NOCREATE";
        Str "ITEMS"; Str "a"; Str "b"].
Proof.
  assert (Hcmd :
    BloomFilter.insert_cmd this [Str "a"; Str "b"] (Some all_options) =
    [Str "BF.INSERT"; Str (name this); Str "ERROR"; Num n0_01;
     Str "CAPACITY"; Num n100; Str "NONSCALING"; Str "NOCREATE";
     Str "ITEMS"; Str "a"; Str "b"]).
  { rewrite insert_cmd_shape. vm_compute. reflexivity. }
  split; [exact Hcmd|].
  unfold BloomFilter.insert. rewrite Hcmd. apply submits_call.
Qed.

(** C4.  [insert] called with no options builds exactly
    INSERT name ITEMS followed by the items, for every items array; with
    items [1,2,3] that is INSERT name ITEMS 1 2 3.  No ERROR, CAPACITY,
    NONSCALING, EXPANSION or NOCREATE clause is emitted.  The same holds
    when the options object is [{}]. *)
Theorem insert_without_options (this : BaseFilter) (items : list value) :
  BloomFilter.insert_cmd this items None
    = Str "BF.INSERT" :: Str (name this) :: Str "ITEMS" :: items
  /\ BloomFilter.insert_cmd this items (Some no_options)
    = Str "BF.INSERT" :: Str (name this) :: Str "ITEMS" :: items
  /\ BloomFilter.insert_cmd this
       [Num (JsNumber.of_Z 1); Num (JsNumber.of_Z 2); Num (JsNumber.of_Z 3)]
       None
     = [Str "BF.INSERT"; Str (name this); Str "ITEMS";
        Num (JsNumber.of_Z 1); Num (JsNumber.of_Z 2); Num (JsNumber.of_Z 3)]
  /\ submits (BloomFilter.insert this items None)
       (Str "BF.INSERT" :: Str (name this) :: Str "ITEMS" :: items).
Proof.
  split; [reflexivity|]. split; [reflexivity|]. split; [reflexivity|].
  intros c. reflexivity.
Qed.

(** C6.  [reserve] called without an expansion rate uses the default 2:
    the command ends with the clause EXPANSION 2, not with the
    non-scaling marker. *)
Theorem reserve_default_expansion (this : BaseFilter)
        (errorRate capacity : number) :
  BloomFilter.reserve_cmd this errorRate capacity None =
    [Str "BF.RESERVE"; Str (name this); Num errorRate; Num capacity;
     Str "EXPANSION"; Num (JsNumber.of_Z 2)]
  /\ submits (BloomFilter.reserve this errorRate capacity None)
       [Str "BF.RESERVE"; Str (name this); Num errorRate; Num capacity;
        Str "EXPANSION"; Num (JsNumber.of_Z 2)].
Proof.
  split; [reflexivity|]. intros c. reflexivity.
Qed.

(** C2.  For every error rate and capacity (in particular every valid
    error rate in (0,1) and positive capacity), [reserve] with an expansion
    rate of 0, or any rate <= 0, builds
    [RESERVE, name, errorRate, capacity, NONSCALING], and with any positive
    rate builds [RESERVE, name, errorRate, capacity, EXPANSION, rate] with
    that very rate. *)
Theorem reserve_scaling_clause (this : BaseFilter)
        (errorRate capacity rate : number) :
  BloomFilter.reserve_cmd this errorRate capacity (Some JsNumber.zero) =
    [Str "BF.RESERVE"; Str (name this); Num errorRate; Num capacity;
     Str "NONSCALING"]
  /\ (JsNumber.leb rate JsNumber.zero = true ->
      BloomFilter.reserve_cmd this errorRate capacity (Some rate) =
        [Str "BF.RESERVE"; Str (name this); Num errorRate; Num capacity;
         Str "NONSCALING"])
  /\ (JsNumber.ltb JsNumber.zero rate = true ->
      BloomFilter.reserve_cmd this errorRate capacity (Some rate) =
        [Str "BF.RESERVE"; Str (name this); Num errorRate; Num capacity;
         Str "EXPANSION"; Num rate]).
Proof.
  split; [reflexivity|]. split; intros H; unfold BloomFilter.reserve_cmd.
  - rewrite H. reflexivity.
  - rewrite (positive_is_not_at_most_zero _ H). reflexivity.
Qed.

Lemma reserve_scaling_clause_witness :
  JsNumber.leb (JsNumber.of_Z (-3)) JsNumber.zero = true
  /\ JsNumber.ltb JsNumber.zero (JsNumber.of_Z 4) = true
  /\ BloomFilter.reserve_cmd (mkFilter "f") n0_01 n100
       (Some (JsNumber.of_Z (-3))) =
     [Str "BF.RESERVE"; Str "f"; Num n0_01; Num n100; Str "NONSCALING"]
  /\ BloomFilter.reserve_cmd (mkFilter "f") n0_01 n100
       (Some (JsNumber.of_Z 4)) =
     [Str "BF.RESERVE"; Str "f"; Num n0_01; Num n100;
      Str "EXPANSION"; Num (JsNumber.of_Z 4)].
Proof.
  split; [reflexivity|]. split; [reflexivity|]. split.
  - apply (proj1 (proj2 (reserve_scaling_clause (mkFilter "f") n0_01 n100
                           (JsNumber.of_Z (-3))))).
    reflexivity.
  - apply (proj2 (proj2 (reserve_scaling_clause (mkFilter "f") n0_01 n100
                           (JsNumber.of_Z 4)))).
    reflexivity.
Defined.

(** The clauses around the scaling clause never contain a scaling token. *)
Lemma no_scaling_token_elsewhere (o : InsertOptions) :
  count_token "NONSCALING"
    (error_clause o ++ capacity_clause o ++ nocreate_clause o) = 0
  /\ count_token "EXPANSION"
    (error_clause o ++ capacity_clause o ++ nocreate_clause o) = 0.
Proof.
  destruct o as [er cap ex up].
  unfold error_clause, capacity_clause, nocreate_clause; simpl.
  destruct er as [r|]; [destruct (JsNumber.to_boolean r)|];
    (destruct cap as [k|]; [destruct (JsNumber.to_boolean k)|]);
    destruct up as [[|]|]; split; reflexivity.
Qed.

(** C3.  In [insert], an expansion rate of exactly 0 emits neither the
    NONSCALING marker nor an EXPANSION clause (the scaling clause is
    skipped and the neighbouring clauses hold no scaling token), any
    negative rate emits NONSCALING, and any positive rate emits EXPANSION
    followed by that rate.  So the non-scaling threshold of [insert] is
    strictly negative, whereas [reserve] at rate 0 emits NONSCALING. *)
Theorem insert_scaling_threshold (this : BaseFilter) (items : list value)
        (er cap : option number) (up : option bool) (rate e c : number) :
  let o := mkInsertOptions er cap (Some rate) up in
  let before :=
    [Str "BF.INSERT"; Str (name this)] ++ error_clause o ++ capacity_clause o in
  let after := nocreate_clause o ++ Str "ITEMS" :: items in
  (JsNumber.eqb rate JsNumber.zero = true ->
   BloomFilter.insert_cmd this items (Some o) = before ++ after)
  /\ (JsNumber.ltb rate JsNumber.zero = true ->
      BloomFilter.insert_cmd this items (Some o)
      = before ++ [Str "NONSCALING"] ++ after)
  /\ (JsNumber.ltb JsNumber.zero rate = true ->
      BloomFilter.insert_cmd this items (Some o)
      = before ++ [Str "EXPANSION"; Num rate] ++ after)
  /\ count_token "NONSCALING"
       (error_clause o ++ capacity_clause o ++ nocreate_clause o) = 0
  /\ count_token "EXPANSION"
       (error_clause o ++ capacity_clause o ++ nocreate_clause o) = 0
  /\ (JsNumber.eqb rate JsNumber.zero = true ->
      BloomFilter.reserve_cmd this e c (Some rate)
      = [Str "BF.RESERVE"; Str (name this); Num e; Num c; Str "NONSCALING"]).
Proof.
  intros o before after.
  assert (Hshape :
    BloomFilter.insert_cmd this items (Some o)
    = before ++ scaling_clause o ++ after).
  { rewrite insert_cmd_shape. unfold before, after, clauses. simpl given.
    rewrite <- !app_assoc. reflexivity. }
  assert (Hscaling :
    scaling_clause o
    = if JsNumber.to_boolean rate
      then if JsNumber.ltb rate JsNumber.zero
           then [Str "NONSCALING"] else [Str "EXPANSION"; Num rate]
      else []) by reflexivity.
  rewrite Hshape, Hscaling.
  repeat split.
  - intros H. rewrite (zero_is_falsy _ H). reflexivity.
  - intros H. rewrite (negative_is_truthy _ H), H. reflexivity.
  - intros H.
    rewrite (positive_is_truthy _ H), (positive_is_not_negative _ H).
    reflexivity.
  - apply no_scaling_token_elsewhere.
  - apply no_scaling_token_elsewhere.
  - intros H. unfold BloomFilter.reserve_cmd.
    rewrite (zero_is_at_most_zero _ H). reflexivity.
Qed.

Lemma insert_scaling_threshold_witness :
  BloomFilter.insert_cmd (mkFilter "f") [Str "a"]
    (Some (mkInsertOptions None None (Some JsNumber.zero) None))
  = [Str "BF.INSERT"; Str "f"; Str "ITEMS"; Str "a"]
  /\ BloomFilter.insert_cmd (mkFilter "f") [Str "a"]
       (Some (mkInsertOptions None None (Some (JsNumber.of_Z (-1))) None))
     = [Str "BF.INSERT"; Str "f"; Str "NONSCALING"; Str "ITEMS"; Str "a"]
  /\ BloomFilter.insert_cmd (mkFilter "f") [Str "a"]
       (Some (mkInsertOptions None None (Some (JsNumber.of_Z 2)) None))
     = [Str "BF.INSERT"; Str "f"; Str "EXPANSION"; Num (JsNumber.of_Z 2);
        Str "ITEMS"; Str "a"]
  /\ BloomFilter.reserve_cmd (mkFilter "f") n0_01 n100 (Some JsNumber.zero)
     = [Str "BF.RESERVE"; Str "f"; Num n0_01; Num n100; Str "NONSCALING"].
Proof.
  split; [|split; [|split]].
  - apply (proj1 (insert_scaling_threshold (mkFilter "f") [Str "a"]
                    None None None JsNumber.zero n0_01 n100)).
    reflexivity.
  - apply (proj1 (proj2 (insert_scaling_threshold (mkFilter "f") [Str "a"]
                    None None None (JsNumber.of_Z (-1)) n0_01 n100))).
    reflexivity.
  - apply (proj1 (proj2 (proj2 (insert_scaling_threshold (mkFilter "f")
                    [Str "a"] None None None (JsNumber.of_Z 2) n0_01 n100)))).
    reflexivity.
  - apply (proj2 (proj2 (proj2 (proj2 (proj2 (insert_scaling_threshold
                    (mkFilter "f") [Str "a"] None None None JsNumber.zero
                    n0_01 n100)))))).
    reflexivity.
Defined.

(** C5, as stated, fails: the batch methods hold no check on the batch.
    On the filter "f" and a client that has been handed nothing, [madd],
    [mexists] and [insert] with an empty items array return a promise and
    the command is with the client; none of them fails before
    submission. *)
Lemma empty_batch_reaches_the_client :
  BloomFilter.madd (mkFilter "f") [] Client.fresh
    = (Client.Returns 0, Client.mk [[Str "BF.MADD"; Str "f"]])
  /\ BloomFilter.mexists (mkFilter "f") [] Client.fresh
    = (Client.Returns 0, Client.mk [[Str "BF.MEXISTS"; Str "f"]])
  /\ BloomFilter.insert (mkFilter "f") [] None Client.fresh
    = (Client.Returns 0, Client.mk [[Str "BF.INSERT"; Str "f"; Str "ITEMS"]])
  /\ ~ fails_before_submission (BloomFilter.madd (mkFilter "f") [])
       Client.fresh
  /\ ~ fails_before_submission (BloomFilter.mexists (mkFilter "f") [])
       Client.fresh
  /\ ~ fails_before_submission (BloomFilter.insert (mkFilter "f") [] None)
       Client.fresh.
Proof.
  repeat split; intros [reason H]; discriminate H.
Qed.

(** C5, amended.  [madd], [mexists] and [insert] check nothing locally:
    called with an empty items array they do not fail, and each hands
    exactly one command to the client, namely [BF.MADD, name],
    [BF.MEXISTS, name] and [BF.INSERT, name, optional clauses, ITEMS]. *)
Theorem empty_batch_is_submitted (this : BaseFilter)
        (options : option InsertOptions) (c : Client.t) :
  submits (BloomFilter.madd this []) [Str "BF.MADD"; Str (name this)]
  /\ submits (BloomFilter.mexists this []) [Str "BF.MEXISTS"; Str (name this)]
  /\ submits (BloomFilter.insert this [] options)
       ([Str "BF.INSERT"; Str (name this)] ++ clauses (given options)
          ++ [Str "ITEMS"])
  /\ ~ fails_before_submission (BloomFilter.madd this []) c
  /\ ~ fails_before_submission (BloomFilter.mexists this []) c
  /\ ~ fails_before_submission (BloomFilter.insert this [] options) c.
Proof.
  assert (Hmadd :
    submits (BloomFilter.madd this []) [Str "BF.MADD"; Str (name this)])
    by apply submits_call.
  assert (Hmexists :
    submits (BloomFilter.mexists this []) [Str "BF.MEXISTS"; Str (name this)])
    by apply submits_call.
  assert (Hinsert :
    submits (BloomFilter.insert this [] options)
      ([Str "BF.INSERT"; Str (name this)] ++ clauses (given options)
         ++ [Str "ITEMS"])).
  { unfold BloomFilter.insert. rewrite insert_cmd_shape. apply submits_call. }
  repeat split; try assumption;
    eapply submits_not_failing; eassumption.
Qed.

(** The clauses before the no-create marker never contain it. *)
Lemma no_nocreate_token_before (o : InsertOptions) :
  count_token "NOCREATE"
    (error_clause o ++ capacity_clause o ++ scaling_clause o) = 0.
Proof.
  destruct o as [er cap ex up].
  unfold error_clause, capacity_clause, scaling_clause; simpl.
  destruct er as [r|]; [destruct (JsNumber.to_boolean r)|];
    (destruct cap as [k|]; [destruct (JsNumber.to_boolean k)|]);
    (destruct ex as [x|];
       [destruct (JsNumber.to_boolean x);
          [destruct (JsNumber.ltb x JsNumber.zero)|]|]);
    reflexivity.
Qed.

(** C7.  [insert] appends the NOCREATE marker, as the last optional
    clause, if and only if the [upsert] option is explicitly [false]; when
    [upsert] is left out it defaults to [true] and no NOCREATE marker is
    emitted (nor when it is [true], nor when no options are passed). *)
Theorem insert_nocreate_iff_upsert_false (this : BaseFilter)
        (items : list value) (options : option InsertOptions) :
  let o := given options in
  let before := error_clause o ++ capacity_clause o ++ scaling_clause o in
  (upsert o = Some false ->
   BloomFilter.insert_cmd this items options
   = [Str "BF.INSERT"; Str (name this)] ++ before
       ++ [Str "NOCREATE"] ++ Str "ITEMS" :: items)
  /\ (upsert o <> Some false ->
      BloomFilter.insert_cmd this items options
      = [Str "BF.INSERT"; Str (name this)] ++ before ++ Str "ITEMS" :: items)
  /\ count_token "NOCREATE" before = 0
  /\ (count_token "NOCREATE" (clauses o) = 1 <-> upsert o = Some false)
  /\ (upsert o = None -> count_token "NOCREATE" (clauses o) = 0).
Proof.
  intros o before.
  assert (Hshape :
    BloomFilter.insert_cmd this items options
    = [Str "BF.INSERT"; Str (name this)] ++ before
        ++ nocreate_clause o ++ Str "ITEMS" :: items).
  { rewrite insert_cmd_shape. fold o. unfold clauses, before.
    rewrite <- !app_assoc. reflexivity. }
  assert (Hcount :
    count_token "NOCREATE" (clauses o)
    = count_token "NOCREATE" (nocreate_clause o)).
  { replace (clauses o) with (before ++ nocreate_clause o)
      by (unfold clauses, before; rewrite <- !app_assoc; reflexivity).
    rewrite count_token_app. unfold before.
    rewrite (no_nocreate_token_before o). reflexivity. }
  rewrite Hshape, Hcount. unfold nocreate_clause.
  destruct (upsert o) as [[|]|]; repeat split;
    try reflexivity; try congruence; try discriminate;
    try apply no_nocreate_token_before.
Qed.

Lemma insert_nocreate_iff_upsert_false_witness :
  BloomFilter.insert_cmd (mkFilter "f") [Str "a"]
    (Some (mkInsertOptions None None None (Some false)))
  = [Str "BF.INSERT"; Str "f"; Str "NOCREATE"; Str "ITEMS"; Str "a"]
  /\ BloomFilter.insert_cmd (mkFilter "f") [Str "a"]
       (Some (mkInsertOptions None None None None))
     = [Str "BF.INSERT"; Str "f"; Str "ITEMS"; Str "a"]
  /\ BloomFilter.insert_cmd (mkFilter "f") [Str "a"]
       (Some (mkInsertOptions None None None (Some true)))
     = [Str "BF.INSERT"; Str "f"; Str "ITEMS"; Str "a"].
Proof.
  split; [|split].
  - apply (proj1 (insert_nocreate_iff_upsert_false (mkFilter "f") [Str "a"]
             (Some (mkInsertOptions None None None (Some false))))).
    reflexivity.
  - apply (proj1 (proj2 (insert_nocreate_iff_upsert_false (mkFilter "f")
             [Str "a"] (Some (mkInsertOptions None None None None))))).
    simpl. discriminate.
  - apply (proj1 (proj2 (insert_nocreate_iff_upsert_false (mkFilter "f")
             [Str "a"] (Some (mkInsertOptions None None None (Some true)))))).
    simpl. discriminate.
Defined.

(** C8.  Every operation ([reserve], [add], [madd], [exists], [mexists],
    [info], [insert]), on all arguments, hands the client one ordered
    sequence whose first element is the operation's name token and whose
    second element is the filter's name, followed by the arguments of
    that operation. *)
Theorem commands_start_with_operation_and_name (this : BaseFilter)
        (e c : number) (rate : option number) (item : value)
        (items : list value) (options : option InsertOptions) :
  (exists scaling,
     submits (BloomFilter.reserve this e c rate)
       (Str "BF.RESERVE" :: Str (name this) :: Num e :: Num c :: scaling))
  /\ submits (BloomFilter.add this item)
       (Str "BF.ADD" :: Str (name this) :: [item])
  /\ submits (BloomFilter.madd this items)
       (Str "BF.MADD" :: Str (name this) :: items)
  /\ submits (BloomFilter.exists_ this item)
       (Str "BF.EXISTS" :: Str (name this) :: [item])
  /\ submits (BloomFilter.mexists this items)
       (Str "BF.MEXISTS" :: Str (name this) :: items)
  /\ submits (BloomFilter.info this)
       (Str "BF.INFO" :: Str (name this) :: [])
  /\ submits (BloomFilter.insert this items options)
       (Str "BF.INSERT" :: Str (name this)
          :: clauses (given options) ++ Str "ITEMS" :: items).
Proof.
  split.
  - unfold BloomFilter.reserve, BloomFilter.reserve_cmd.
    destruct (JsNumber.leb
                match rate with Some r => r | None => JsNumber.of_Z 2 end
                JsNumber.zero);
      eexists; apply submits_callOne.
  - repeat split; try (intros k; reflexivity).
    unfold BloomFilter.insert. rewrite insert_cmd_shape. apply submits_call.
Qed.

(** C9, as stated, fails: an item may itself be the string ITEMS.
    Inserting the single item "ITEMS" into the filter "f" builds a command
    that holds the ITEMS token twice. *)
Lemma items_token_can_occur_twice :
  BloomFilter.insert_cmd (mkFilter "f") [Str "ITEMS"] None
    = [Str "BF.INSERT"; Str "f"; Str "ITEMS"; Str "ITEMS"]
  /\ count_token "ITEMS"
       (BloomFilter.insert_cmd (mkFilter "f") [Str "ITEMS"] None) = 2
  /\ count_token "ITEMS"
       (BloomFilter.insert_cmd (mkFilter "f") [Str "ITEMS"] None) <> 1.
Proof.
  split; [reflexivity|]. split; [reflexivity|]. discriminate.
Qed.

(** The optional clauses never contain the items marker. *)
Lemma no_items_token_in_clauses (o : InsertOptions) :
  count_token "ITEMS" (clauses o) = 0.
Proof.
  destruct o as [er cap ex up].
  unfold clauses, error_clause, capacity_clause, scaling_clause,
    nocreate_clause; simpl.
  destruct er as [r|]; [destruct (JsNumber.to_boolean r)|];
    (destruct cap as [k|]; [destruct (JsNumber.to_boolean k)|]);
    (destruct ex as [x|];
       [destruct (JsNumber.to_boolean x);
          [destruct (JsNumber.ltb x JsNumber.zero)|]|]);
    destruct up as [[|]|]; reflexivity.
Qed.

(** C9, amended.  Every command built by [insert] is [BF.INSERT, name],
    then the optional clauses, then the ITEMS marker, then the items, for
    every input including the empty items array.  The optional clauses
    never hold an ITEMS token, so the command holds the ITEMS token once
    plus once for the name and for each item that is the string ITEMS;
    exactly once when neither the name nor any item is that string.
    In particular [insert([], {})] builds and submits exactly
    [BF.INSERT, name, ITEMS]. *)
Theorem insert_items_marker (this : BaseFilter) (items : list value)
        (options : option InsertOptions) :
  BloomFilter.insert_cmd this items options
    = ([Str "BF.INSERT"; Str (name this)] ++ clauses (given options))
        ++ Str "ITEMS" :: items
  /\ count_token "ITEMS" (clauses (given options)) = 0
  /\ count_token "ITEMS" (BloomFilter.insert_cmd this items options)
     = count_token "ITEMS" [Str (name this)] + 1 + count_token "ITEMS" items
  /\ (name this <> "ITEMS" -> count_token "ITEMS" items = 0 ->
      count_token "ITEMS" (BloomFilter.insert_cmd this items options) = 1)
  /\ submits (BloomFilter.insert this items options)
       (([Str "BF.INSERT"; Str (name this)] ++ clauses (given options))
          ++ Str "ITEMS" :: items)
  /\ BloomFilter.insert_cmd this [] (Some no_options)
     = [Str "BF.INSERT"; Str (name this); Str "ITEMS"]
  /\ submits (BloomFilter.insert this [] (Some no_options))
       [Str "BF.INSERT"; Str (name this); Str "ITEMS"].
Proof.
  assert (Hshape :
    BloomFilter.insert_cmd this items options
    = ([Str "BF.INSERT"; Str (name this)] ++ clauses (given options))
        ++ Str "ITEMS" :: items).
  { rewrite insert_cmd_shape, <- app_assoc. reflexivity. }
  assert (Hcount :
    count_token "ITEMS" (BloomFilter.insert_cmd this items options)
    = count_token "ITEMS" [Str (name this)] + 1 + count_token "ITEMS" items).
  { rewrite Hshape.
    change ([Str "BF.INSERT"; Str (name this)])
      with ([Str "BF.INSERT"] ++ [Str (name this)]).
    change (Str "ITEMS" :: items) with ([Str "ITEMS"] ++ items).
    rewrite !count_token_app, no_items_token_in_clauses.
    change (count_token "ITEMS" [Str "BF.INSERT"]) with 0.
    change (count_token "ITEMS" [Str "ITEMS"]) with 1.
    lia. }
  split; [exact Hshape|]. split; [apply no_items_token_in_clauses|].
  split; [exact Hcount|]. split.
  - intros Hname Hitems. rewrite Hcount, Hitems.
    unfold count_token. cbn [filter is_token].
    destruct (String.eqb_spec "ITEMS" (name this)) as [Heq|Hneq];
      [congruence | reflexivity].
  - split.
    + unfold BloomFilter.insert. rewrite Hshape. apply submits_call.
    + split; [reflexivity|]. intros k. reflexivity.
Qed.

Lemma insert_items_marker_witness :
  name (mkFilter "f") <> "ITEMS"
  /\ count_token "ITEMS" [Str "a"; Str "b"] = 0
  /\ count_token "ITEMS"
       (BloomFilter.insert_cmd (mkFilter "f") [Str "a"; Str "b"]
          (Some all_options)) = 1.
Proof.
  split; [discriminate|]. split; [reflexivity|].
  apply (proj1 (proj2 (proj2 (proj2
           (insert_items_marker (mkFilter "f") [Str "a"; Str "b"]
              (Some all_options)))))).
  - discriminate.
  - reflexivity.
Defined.

(** An option whose value is falsy (a zero or NaN) leaves the same
    command as the option left out. *)
Lemma insert_falsy_option_is_absent (this : BaseFilter) (items : list value)
      (er cap ex : option number) (up : option bool) (z : number) :
  JsNumber.to_boolean z = false ->
  BloomFilter.insert_cmd this items (Some (mkInsertOptions (Some z) cap ex up))
  = BloomFilter.insert_cmd this items (Some (mkInsertOptions None cap ex up))
  /\ BloomFilter.insert_cmd this items
       (Some (mkInsertOptions er (Some z) ex up))
     = BloomFilter.insert_cmd this items (Some (mkInsertOptions er None ex up))
  /\ BloomFilter.insert_cmd this items
       (Some (mkInsertOptions er cap (Some z) up))
     = BloomFilter.insert_cmd this items (Some (mkInsertOptions er cap None up)).
Proof.
  intros Hz. rewrite !insert_cmd_shape.
  unfold clauses, error_clause, capacity_clause, scaling_clause; simpl.
  rewrite Hz. repeat split; reflexivity.
Qed.

(** C10.  [insert] tests [errorRate], [capacity] and [expansionRate] for
    truthiness, so passing [errorRate = 0] or [capacity = 0] (or
    [expansionRate = 0]) leaves the clause out entirely: the built command
    is the same as when the option is absent. *)
Theorem insert_zero_option_is_absent (this : BaseFilter) (items : list value)
        (er cap ex : option number) (up : option bool) (z : number) :
  JsNumber.eqb z JsNumber.zero = true ->
  BloomFilter.insert_cmd this items (Some (mkInsertOptions (Some z) cap ex up))
  = BloomFilter.insert_cmd this items (Some (mkInsertOptions None cap ex up))
  /\ BloomFilter.insert_cmd this items
       (Some (mkInsertOptions er (Some z) ex up))
     = BloomFilter.insert_cmd this items (Some (mkInsertOptions er None ex up))
  /\ BloomFilter.insert_cmd this items
       (Some (mkInsertOptions er cap (Some z) up))
     = BloomFilter.insert_cmd this items (Some (mkInsertOptions er cap None up)).
Proof.
  intros Hz. apply insert_falsy_option_is_absent. apply zero_is_falsy, Hz.
Qed.

Lemma insert_zero_option_is_absent_witness :
  JsNumber.eqb JsNumber.zero JsNumber.zero = true
  /\ BloomFilter.insert_cmd (mkFilter "f") [Str "a"]
       (Some (mkInsertOptions (Some JsNumber.zero) (Some n100) None None))
     = BloomFilter.insert_cmd (mkFilter "f") [Str "a"]
       (Some (mkInsertOptions None (Some n100) None None)).
Proof.
  split; [reflexivity|].
  apply (proj1 (insert_zero_option_is_absent (mkFilter "f") [Str "a"]
                  None (Some n100) None None JsNumber.zero eq_refl)).
Defined.


(** ** Further properties of the assembled commands *)

Lemma count_token_cons (token : string) (v : value) (cmd : command) :
  count_token token (v :: cmd)
  = (if is_token token v then 1 else 0) + count_token token cmd.
Proof.
  unfold count_token. cbn [filter]. destruct (is_token token v); reflexivity.
Qed.

(** A sequence is cut in one way only at the first occurrence of a token. *)
Lemma first_marker_split_unique (token : string) (xs : command) :
  forall (xs' ys ys' : command),
    count_token token xs = 0 ->
    count_token token xs' = 0 ->
    xs ++ Str token :: ys = xs' ++ Str token :: ys' ->
    xs = xs' /\ ys = ys'.
Proof.
  induction xs as [|x xs IH]; intros [|x' xs'] ys ys' Hxs Hxs' Heq;
    cbn [app] in Heq.
  - injection Heq as Hys. auto.
  - injection Heq as Hx Hrest. subst x'.
    rewrite count_token_cons in Hxs'. cbn [is_token] in Hxs'.
    rewrite String.eqb_refl in Hxs'. discriminate.
  - injection Heq as Hx Hrest. subst x.
    rewrite count_token_cons in Hxs. cbn [is_token] in Hxs.
    rewrite String.eqb_refl in Hxs. discriminate.
  - injection Heq as Hx Hrest. subst x'.
    rewrite count_token_cons in Hxs, Hxs'.
    destruct (IH xs' ys ys') as [Hl Hr]; try lia; try assumption.
    subst. auto.
Qed.

(** The items of a sequence [pre ++ marker :: items] sit at its end,
    right after the marker. *)
Lemma items_at_the_end (pre : command) (marker : value) (items : command) :
  let cmd := pre ++ marker :: items in
  List.length cmd = List.length pre + 1 + List.length items
  /\ skipn (List.length cmd - List.length items) cmd = items
  /\ nth_error cmd (List.length cmd - List.length items - 1) = Some marker.
Proof.
  intros cmd.
  assert (Hlen : List.length cmd = List.length pre + 1 + List.length items).
  { unfold cmd. rewrite length_app. cbn [List.length]. lia. }
  split; [exact Hlen|]. split.
  - replace (List.length cmd - List.length items) with (List.length pre + 1)
      by lia.
    unfold cmd. rewrite skipn_app, skipn_all2 by lia.
    replace (List.length pre + 1 - List.length pre) with 1 by lia.
    reflexivity.
  - replace (List.length cmd - List.length items - 1) with (List.length pre)
      by lia.
    unfold cmd. rewrite nth_error_app2 by lia.
    rewrite Nat.sub_diag. reflexivity.
Qed.

(** A number is truthy exactly when it is negative or positive. *)
Lemma truthy_iff_signed (n : number) :
  JsNumber.to_boolean n = true
  <-> (JsNumber.ltb n JsNumber.zero = true
       \/ JsNumber.ltb JsNumber.zero n = true).
Proof.
  destruct n as [s | s | | s m e]; try destruct s; cbv;
    intuition congruence.
Qed.

(** X1.  An [insert] command is read back in one way only: two calls
    that build the same command have the same filter name, the same
    optional clauses and the same items, whatever the items are (an item
    may be the string ITEMS or NOCREATE). *)
Theorem insert_cmd_unambiguous (this this' : BaseFilter)
        (items items' : list value) (options options' : option InsertOptions) :
  BloomFilter.insert_cmd this items options
  = BloomFilter.insert_cmd this' items' options' ->
  name this = name this'
  /\ clauses (given options) = clauses (given options')
  /\ items = items'.
Proof.
  rewrite !insert_cmd_shape. cbn [app]. intros Heq.
  injection Heq as Hname Hrest.
  apply first_marker_split_unique in Hrest;
    try apply no_items_token_in_clauses.
  destruct Hrest as [Hclauses Hitems]. auto.
Qed.

Lemma insert_cmd_unambiguous_witness :
  name (mkFilter "f") = name (mkFilter "f")
  /\ clauses (given (Some (mkInsertOptions (Some JsNumber.zero) None None
                             (Some false))))
     = clauses (given (Some (mkInsertOptions None None None (Some false))))
  /\ [Str "ITEMS"; Str "NOCREATE"] = [Str "ITEMS"; Str "NOCREATE"].
Proof.
  apply (insert_cmd_unambiguous (mkFilter "f") (mkFilter "f")
           [Str "ITEMS"; Str "NOCREATE"] [Str "ITEMS"; Str "NOCREATE"]
           (Some (mkInsertOptions (Some JsNumber.zero) None None (Some false)))
           (Some (mkInsertOptions None None None (Some false)))).
  reflexivity.
Defined.

(** X2.  The items of an [insert] command are its last elements, unchanged
    and in call order, and the element just before them is the ITEMS
    marker; the command has at least three elements more than the batch. *)
Theorem insert_items_at_the_end (this : BaseFilter) (items : list value)
        (options : option InsertOptions) :
  let cmd := BloomFilter.insert_cmd this items options in
  3 + List.length items <= List.length cmd
  /\ skipn (List.length cmd - List.length items) cmd = items
  /\ nth_error cmd (List.length cmd - List.length items - 1)
     = Some (Str "ITEMS")
  /\ (forall i, nth_error cmd (List.length cmd - List.length items + i)
                = nth_error items i).
Proof.
  intros cmd.
  assert (Hshape :
    cmd = ([Str "BF.INSERT"; Str (name this)] ++ clauses (given options))
            ++ Str "ITEMS" :: items).
  { unfold cmd. rewrite insert_cmd_shape, <- app_assoc. reflexivity. }
  destruct (items_at_the_end
              ([Str "BF.INSERT"; Str (name this)] ++ clauses (given options))
              (Str "ITEMS") items) as (Hlen & Hskip & Hnth).
  cbv zeta in Hlen, Hskip, Hnth. rewrite <- Hshape in Hlen, Hskip, Hnth.
  rewrite length_app in Hlen. cbn [List.length] in Hlen.
  split; [lia|]. split; [exact Hskip|]. split; [exact Hnth|].
  intros i. rewrite <- nth_error_skipn, Hskip. reflexivity.
Qed.

(** X3.  Whatever the options, the optional part of an [insert] command
    holds each of ERROR, CAPACITY and NOCREATE at most once, never both
    NONSCALING and EXPANSION, no ITEMS token, and at most seven elements;
    the command is at most ten elements longer than the batch. *)
Theorem insert_clauses_bounded (this : BaseFilter) (items : list value)
        (options : option InsertOptions) :
  exists optional_part,
    BloomFilter.insert_cmd this items options
    = [Str "BF.INSERT"; Str (name this)] ++ optional_part
        ++ Str "ITEMS" :: items
    /\ count_token "ERROR" optional_part <= 1
    /\ count_token "CAPACITY" optional_part <= 1
    /\ count_token "NONSCALING" optional_part
       + count_token "EXPANSION" optional_part <= 1
    /\ count_token "NOCREATE" optional_part <= 1
    /\ count_token "ITEMS" optional_part = 0
    /\ List.length optional_part <= 7
    /\ List.length (BloomFilter.insert_cmd this items options)
       <= 10 + List.length items.
Proof.
  exists (clauses (given options)).
  split; [apply insert_cmd_shape|].
  assert (Hlen : List.length (clauses (given options)) <= 7).
  { destruct (given options) as [er cap ex up].
    unfold clauses, error_clause, capacity_clause, scaling_clause,
      nocreate_clause; simpl.
    destruct er as [r|]; [destruct (JsNumber.to_boolean r)|];
      (destruct cap as [k|]; [destruct (JsNumber.to_boolean k)|]);
      (destruct ex as [x|];
         [destruct (JsNumber.to_boolean x);
            [destruct (JsNumber.ltb x JsNumber.zero)|]|]);
      destruct up as [[|]|]; cbn [List.length app]; lia. }
  repeat split; try exact Hlen; try apply no_items_token_in_clauses;
    try (rewrite insert_cmd_shape, !length_app; cbn [List.length]; lia);
    destruct (given options) as [er cap ex up];
    unfold clauses, error_clause, capacity_clause, scaling_clause,
      nocreate_clause; simpl;
    (destruct er as [r|]; [destruct (JsNumber.to_boolean r)|]);
    (destruct cap as [k|]; [destruct (JsNumber.to_boolean k)|]);
    (destruct ex as [x|];
       [destruct (JsNumber.to_boolean x);
          [destruct (JsNumber.ltb x JsNumber.zero)|]|]);
    destruct up as [[|]|]; vm_compute; lia.
Qed.

(** X4.  For the same expansion rate, [insert] emits the scaling clause
    that [reserve] emits exactly when the rate is negative or positive;
    for a zero or NaN rate the two commands disagree. *)
Theorem insert_scaling_agrees_with_reserve (this : BaseFilter)
        (items : list value) (er cap : option number) (up : option bool)
        (rate e c : number) :
  let o := mkInsertOptions er cap (Some rate) up in
  BloomFilter.insert_cmd this items (Some o)
  = ([Str "BF.INSERT"; Str (name this)] ++ error_clause o ++ capacity_clause o)
      ++ skipn 4 (BloomFilter.reserve_cmd this e c (Some rate))
      ++ nocreate_clause o ++ Str "ITEMS" :: items
  <-> (JsNumber.ltb rate JsNumber.zero = true
       \/ JsNumber.ltb JsNumber.zero rate = true).
Proof.
  intros o.
  assert (Hshape :
    BloomFilter.insert_cmd this items (Some o)
    = ([Str "BF.INSERT"; Str (name this)] ++ error_clause o
         ++ capacity_clause o)
        ++ scaling_clause o ++ nocreate_clause o ++ Str "ITEMS" :: items).
  { rewrite insert_cmd_shape. unfold clauses. simpl given.
    rewrite <- !app_assoc. reflexivity. }
  assert (Hkey :
    scaling_clause o = skipn 4 (BloomFilter.reserve_cmd this e c (Some rate))
    <-> (JsNumber.ltb rate JsNumber.zero = true
         \/ JsNumber.ltb JsNumber.zero rate = true)).
  { unfold scaling_clause, o, BloomFilter.reserve_cmd. simpl expansionRate.
    destruct rate as [s | s | | s m x]; try destruct s; cbv;
      split; intros H;
      try reflexivity; try discriminate H;
      try (left; reflexivity); try (right; reflexivity);
      destruct H as [H | H]; discriminate H. }
  rewrite Hshape. split.
  - intros Heq. apply Hkey.
    apply app_inv_head in Heq.
    rewrite !app_assoc in Heq. apply app_inv_tail in Heq.
    apply app_inv_tail in Heq. exact Heq.
  - intros Hsigned. apply Hkey in Hsigned. rewrite Hsigned. reflexivity.
Qed.

(** X5.  NaN as an option value: [insert] drops an [errorRate],
    [capacity] or [expansionRate] that is NaN, as if the option were
    absent, whereas [reserve] with a NaN expansion rate asks for a scaling
    filter with the clause EXPANSION NaN (NaN is not <= 0). *)
Theorem nan_in_insert_and_reserve (this : BaseFilter) (items : list value)
        (er cap ex : option number) (up : option bool) (e c : number) :
  BloomFilter.insert_cmd this items
    (Some (mkInsertOptions (Some JsNumber.nan) cap ex up))
  = BloomFilter.insert_cmd this items (Some (mkInsertOptions None cap ex up))
  /\ BloomFilter.insert_cmd this items
       (Some (mkInsertOptions er (Some JsNumber.nan) ex up))
     = BloomFilter.insert_cmd this items (Some (mkInsertOptions er None ex up))
  /\ BloomFilter.insert_cmd this items
       (Some (mkInsertOptions er cap (Some JsNumber.nan) up))
     = BloomFilter.insert_cmd this items (Some (mkInsertOptions er cap None up))
  /\ BloomFilter.reserve_cmd this e c (Some JsNumber.nan)
     = [Str "BF.RESERVE"; Str (name this); Num e; Num c;
        Str "EXPANSION"; Num JsNumber.nan].
Proof.
  destruct (@insert_falsy_option_is_absent this items er cap ex up
              JsNumber.nan eq_refl) as (H1 & H2 & H3).
  repeat split; try assumption.
Qed.

(** X6.  [insert] checks no range: an [errorRate] that is negative or
    positive, a probability or not, is sent as ERROR followed by that very
    number right after the name, and a [capacity] that is negative or
    positive is sent as CAPACITY followed by that very number, the rest of
    the command being unchanged. *)
Theorem insert_sends_any_signed_number (this : BaseFilter)
        (items : list value) (er cap ex : option number) (up : option bool)
        (r k : number) :
  ((JsNumber.ltb r JsNumber.zero = true
    \/ JsNumber.ltb JsNumber.zero r = true) ->
   BloomFilter.insert_cmd this items
     (Some (mkInsertOptions (Some r) cap ex up))
   = Str "BF.INSERT" :: Str (name this) :: Str "ERROR" :: Num r
       :: skipn 2 (BloomFilter.insert_cmd this items
                     (Some (mkInsertOptions None cap ex up))))
  /\ ((JsNumber.ltb k JsNumber.zero = true
       \/ JsNumber.ltb JsNumber.zero k = true) ->
      let o := mkInsertOptions er (Some k) ex up in
      BloomFilter.insert_cmd this items (Some o)
      = ([Str "BF.INSERT"; Str (name this)] ++ error_clause o)
          ++ [Str "CAPACITY"; Num k]
          ++ scaling_clause o ++ nocreate_clause o ++ Str "ITEMS" :: items).
Proof.
  split; intros Hsigned; apply truthy_iff_signed in Hsigned.
  - rewrite !insert_cmd_shape.
    unfold clauses, error_clause; simpl. rewrite Hsigned. reflexivity.
  - intros o. rewrite insert_cmd_shape.
    unfold clauses, capacity_clause, o; simpl. rewrite Hsigned.
    rewrite <- !app_assoc. reflexivity.
Qed.

Lemma insert_sends_any_signed_number_witness :
  BloomFilter.insert_cmd (mkFilter "f") [Str "a"]
    (Some (mkInsertOptions (Some (JsNumber.of_Z 5)) None None None))
  = [Str "BF.INSERT"; Str "f"; Str "ERROR"; Num (JsNumber.of_Z 5);
     Str "ITEMS"; Str "a"]
  /\ BloomFilter.insert_cmd (mkFilter "f") [Str "a"]
       (Some (mkInsertOptions None (Some (JsNumber.of_Z (-3))) None None))
     = [Str "BF.INSERT"; Str "f"; Str "CAPACITY"; Num (JsNumber.of_Z (-3));
        Str "ITEMS"; Str "a"].
Proof.
  split.
  - apply (proj1 (insert_sends_any_signed_number (mkFilter "f") [Str "a"]
                    None None None None (JsNumber.of_Z 5) (JsNumber.of_Z 5))).
    right. reflexivity.
  - apply (proj2 (insert_sends_any_signed_number (mkFilter "f") [Str "a"]
                    None None None None (JsNumber.of_Z 5)
                    (JsNumber.of_Z (-3)))).
    left. reflexivity.
Defined.

(** X7.  When a non-scaling filter is asked for.  [reserve] ends its
    command with NONSCALING exactly when an expansion rate is passed and is
    <= 0; [insert] holds NONSCALING among its optional clauses exactly when
    the [expansionRate] option is present and negative.  Without a rate
    neither asks for a non-scaling filter. *)
Theorem nonscaling_requested_iff (this : BaseFilter) (items : list value)
        (e c : number) (rate : option number)
        (options : option InsertOptions) :
  (count_token "NONSCALING" (skipn 4 (BloomFilter.reserve_cmd this e c rate))
   = 1
   <-> exists x, rate = Some x /\ JsNumber.leb x JsNumber.zero = true)
  /\ exists optional_part,
       BloomFilter.insert_cmd this items options
       = [Str "BF.INSERT"; Str (name this)] ++ optional_part
           ++ Str "ITEMS" :: items
       /\ (count_token "NONSCALING" optional_part = 1
           <-> exists x, expansionRate (given options) = Some x
                         /\ JsNumber.ltb x JsNumber.zero = true).
Proof.
  split.
  - unfold BloomFilter.reserve_cmd. destruct rate as [x|].
    + destruct (JsNumber.leb x JsNumber.zero) eqn:Hle; cbn [skipn]; split.
      * intros _. exists x. auto.
      * intros _. reflexivity.
      * intros H. discriminate H.
      * intros (y & Hy & Hley). injection Hy as Hy. subst y. congruence.
    + split.
      * intros H. discriminate H.
      * intros (y & Hy & _). discriminate Hy.
  - exists (clauses (given options)).
    split; [apply insert_cmd_shape|].
    destruct (given options) as [er cap ex up].
    unfold clauses. rewrite !count_token_app.
    assert (Herr : count_token "NONSCALING"
                     (error_clause (mkInsertOptions er cap ex up)) = 0).
    { unfold error_clause; simpl.
      destruct er as [r|]; [destruct (JsNumber.to_boolean r)|]; reflexivity. }
    assert (Hcap : count_token "NONSCALING"
                     (capacity_clause (mkInsertOptions er cap ex up)) = 0).
    { unfold capacity_clause; simpl.
      destruct cap as [k|]; [destruct (JsNumber.to_boolean k)|]; reflexivity. }
    assert (Hup : count_token "NONSCALING"
                    (nocreate_clause (mkInsertOptions er cap ex up)) = 0).
    { unfold nocreate_clause; simpl. destruct up as [[|]|]; reflexivity. }
    rewrite Herr, Hcap, Hup. unfold scaling_clause. simpl expansionRate.
    destruct ex as [x|].
    + destruct (JsNumber.to_boolean x) eqn:Htruthy;
        [destruct (JsNumber.ltb x JsNumber.zero) eqn:Hneg|]; split.
      * intros _. exists x. auto.
      * intros _. reflexivity.
      * intros H. discriminate H.
      * intros (y & Hy & Hlt). injection Hy as Hy. subst y. congruence.
      * intros H. discriminate H.
      * intros (y & Hy & Hlt). injection Hy as Hy. subst y.
        rewrite (negative_is_truthy _ Hlt) in Htruthy. discriminate.
    + split.
      * intros H. discriminate H.
      * intros (y & Hy & _). discriminate Hy.
Qed.

(** X8.  What a [reserve] command keeps of its arguments.  Two calls with
    explicit rates build the same command exactly when they agree on the
    name, the error rate and the capacity, and either both rates are <= 0
    (the rate itself is then not sent, so all such rates give one command)
    or neither is and the rates are the same. *)
Theorem reserve_cmd_determines (this this' : BaseFilter)
        (e e' c c' r r' : number) :
  BloomFilter.reserve_cmd this e c (Some r)
  = BloomFilter.reserve_cmd this' e' c' (Some r')
  <-> (name this = name this' /\ e = e' /\ c = c'
       /\ ((JsNumber.leb r JsNumber.zero = true
            /\ JsNumber.leb r' JsNumber.zero = true)
           \/ (JsNumber.leb r JsNumber.zero = false
               /\ JsNumber.leb r' JsNumber.zero = false /\ r = r'))).
Proof.
  unfold BloomFilter.reserve_cmd.
  destruct (JsNumber.leb r JsNumber.zero) eqn:Hr;
    destruct (JsNumber.leb r' JsNumber.zero) eqn:Hr'; split.
  - intros H. injection H as Hn He Hc.
    repeat split; try assumption. left. split; reflexivity.
  - intros (Hn & He & Hc & _). rewrite Hn, He, Hc. reflexivity.
  - intros H. discriminate H.
  - intros (_ & _ & _ & [[_ H] | [H _]]); discriminate H.
  - intros H. discriminate H.
  - intros (_ & _ & _ & [[H _] | [_ [H _]]]); discriminate H.
  - intros H. injection H as Hn He Hc Hrate.
    repeat split; try assumption. right. repeat split. exact Hrate.
  - intros (Hn & He & Hc & [[H _] | [_ [_ Hrate]]]); [discriminate H|].
    rewrite Hn, He, Hc, Hrate. reflexivity.
Qed.
